(** * The [cloudflare_access_ca_certificate] resource

    A shallow embedding of
    [internal/provider/resource_cloudflare_access_ca_certificate.go]:
    the five lifecycle hooks (Create, Read, Update, Delete, Import) as
    state-passing functions over the resource data [d], the remote service
    behind the API client, and the trace of remote calls and log lines. *)

From Stdlib Require Import Ascii String.
From stdpp Require Import base strings list gmap.

Local Open Scope string_scope.
Local Open Scope list_scope.

(** ** Go strings *)

(** The double-quote character (byte 34), escaped inside the Go literals. *)
Definition dq : string := String (ascii_of_nat 34) "".

(** [strings.Index(s, sep) >= 0] for a one-byte [sep]. *)
Fixpoint strings_Contains (s : string) (sep : ascii) : bool :=
  match s with
  | EmptyString => false
  | String c s' => if Ascii.eqb c sep then true else strings_Contains s' sep
  end.

(** [strings.Cut(s, sep)] for a one-byte [sep]: the text before and after
    the first [sep], or [None] when [s] has none. *)
Fixpoint strings_Cut (s : string) (sep : ascii) : option (string * string) :=
  match s with
  | EmptyString => None
  | String c s' =>
      if Ascii.eqb c sep then Some (EmptyString, s')
      else match strings_Cut s' sep with
           | Some (before, after) => Some (String c before, after)
           | None => None
           end
  end.

(** [strings.SplitN(s, sep, n)] for a one-byte [sep] and [n >= 0]: at most
    [n] substrings, the last one being the unsplit remainder; [n = 0] gives
    the nil slice. *)
Fixpoint strings_SplitN (s : string) (sep : ascii) (n : nat) : list string :=
  match n with
  | 0 => []
  | S n' =>
      match n' with
      | 0 => [s]
      | S _ =>
          match strings_Cut s sep with
          | None => [s]
          | Some (before, after) => before :: strings_SplitN after sep n'
          end
      end
  end.

(** [strings.Split(s, sep)] for a one-byte [sep]: every [sep]-separated
    segment of [s]. The source never calls it; the import-ID wording of the
    specification (an ID splits into segments on the slash) is read
    through it. *)
Fixpoint strings_Split (s : string) (sep : ascii) : list string :=
  match s with
  | EmptyString => [EmptyString]
  | String c s' =>
      if Ascii.eqb c sep then EmptyString :: strings_Split s' sep
      else match strings_Split s' sep with
           | seg :: segs => String c seg :: segs
           | [] => [String c EmptyString]
           end
  end.

(** ** Go errors *)

(** The error values that reach this file: [errors.New] and [fmt.Errorf]
    without [%w] give an [errorString]; [fmt.Errorf] with [%w] gives a
    [wrapError] that keeps the wrapped error; [NotFoundError] is the
    client's [*cloudflare.NotFoundError]. *)
Inductive error : Type :=
| errorString (s : string)
| wrapError (msg : string) (err : error)
| NotFoundError (msg : string).

(** [err.Error()]. *)
Definition Error (e : error) : string :=
  match e with
  | errorString s => s
  | wrapError msg _ => msg
  | NotFoundError msg => msg
  end.

(** [errors.Unwrap(err)]. *)
Definition errors_Unwrap (e : error) : option error :=
  match e with
  | wrapError _ err => Some err
  | _ => None
  end.

(** [errors.As(err, &notFoundError)] with
    [var notFoundError *cloudflare.NotFoundError]: walks the [Unwrap] chain. *)
Fixpoint errors_As_NotFoundError (e : error) : bool :=
  match e with
  | NotFoundError _ => true
  | wrapError _ err => errors_As_NotFoundError err
  | errorString _ => false
  end.

Definition errors_New (text : string) : error := errorString text.

(** ** Diagnostics *)

Inductive Severity : Type := SevError | SevWarning.

Record Diagnostic : Type := {
  diag_Severity : Severity;
  diag_Summary : string;
  diag_Detail : string;
}.

(** [diag.Diagnostics]; the nil slice is [[]]. *)
Definition Diagnostics : Type := list Diagnostic.

(** [diag.FromErr(err)] for a non-nil [err], the only way the source
    calls it. *)
Definition diag_FromErr (err : error) : Diagnostics :=
  [ {| diag_Severity := SevError; diag_Summary := Error err; diag_Detail := "" |} ].

(** ** Resource data *)

(** [*schema.ResourceData]: the resource's identifier and its attributes.
    Every attribute of this resource is a string. *)
Record ResourceData : Type := {
  Id : string;
  attributes : gmap string string;
}.

(** [d.Get(key).(string)]: the zero value when the attribute is unset. *)
Definition d_Get (d : ResourceData) (key : string) : string :=
  default "" (attributes d !! key).

(** [d.Set(key, value)]. The source drops its error result; the keys it
    sets ([aud], [public_key], [account_id], [zone_id]) are attributes of
    the resource. *)
Definition d_Set (d : ResourceData) (key value : string) : ResourceData :=
  {| Id := Id d; attributes := <[key := value]> (attributes d) |}.

(** [d.SetId(v)]. *)
Definition d_SetId (d : ResourceData) (v : string) : ResourceData :=
  {| Id := v; attributes := attributes d |}.

(** ** Scope identifiers *)

(** [AccessIdentifierType] is a Go string type; it is [string] here. *)

(** Modelled from the spec: the constants [AccountType] and [ZoneType] are
    declared outside this file. The first segment of an import ID must be
    exactly account or zone, and the source compares that segment with
    these two constants. *)
Definition AccountType : string := "account".
Definition ZoneType : string := "zone".

Record AccessIdentifier : Type := {
  Type_ : string;
  Value : string;
}.

(** ** The remote entity and the API client *)

(** [cloudflare.AccessCACertificate], the fields this file reads. *)
Record AccessCACertificate : Type := {
  ID : string;
  Aud : string;
  PublicKey : string;
}.

Inductive LogLevel : Type := LevelDebug | LevelInfo.

(** What a hook does besides changing [d]: calls of client methods (method
    name, container id, application id) and [tflog] lines. *)
Inductive Event : Type :=
| Call (method : string) (containerID applicationID : string)
| Log (level : LogLevel) (msg : string).

Definition is_call (e : Event) : bool :=
  match e with
  | Call _ _ _ => true
  | Log _ _ => false
  end.

(** The client calls of a trace, in order. *)
Definition calls (tr : list Event) : list Event := List.filter is_call tr.

(** A hook either returns or panics (a failed type assertion). *)
Inductive outcome (A : Type) : Type :=
| Returned (a : A)
| Panicked.
Arguments Returned {A} a.
Arguments Panicked {A}.

(** ** The hooks *)

(** Each hook takes [d], [meta] and the world, and returns its Go result
    with the final [d] and world. The [ctx] argument is only handed on to
    the client and to [tflog]; it is left out. *)

Section Resource.

(** The state of the remote service, whatever it is. *)
Context {Remote : Type}.

(** [*cloudflare.API]: the six methods this file calls, each a function
    of the container id and the application id that may change the
    remote state. The two getters are called [AccessCACertificate] and
    [ZoneLevelAccessCACertificate] in Go; the first name is taken by the
    entity's type, hence the [API_] prefix on all six. *)
Record API : Type := {
  API_CreateAccessCACertificate :
    string -> string -> Remote -> (AccessCACertificate + error) * Remote;
  API_CreateZoneLevelAccessCACertificate :
    string -> string -> Remote -> (AccessCACertificate + error) * Remote;
  API_AccessCACertificate :
    string -> string -> Remote -> (AccessCACertificate + error) * Remote;
  API_ZoneLevelAccessCACertificate :
    string -> string -> Remote -> (AccessCACertificate + error) * Remote;
  API_DeleteAccessCACertificate :
    string -> string -> Remote -> option error * Remote;
  API_DeleteZoneLevelAccessCACertificate :
    string -> string -> Remote -> option error * Remote;
}.

(** [meta interface{}]: the provider passes a [*cloudflare.API]; any other
    dynamic type makes the type assertion on [meta] panic. *)
Inductive interface : Type :=
| APIPointer (client : API)
| OtherValue.

(** Everything outside [d]: the remote service and what was observed. *)
Record World : Type := {
  remote : Remote;
  trace : list Event;
}.

(** One client call: run the method on the remote state, record it. *)
Definition call {A : Type} (method : string)
    (f : string -> string -> Remote -> A * Remote)
    (containerID applicationID : string) (w : World) : A * World :=
  let '(res, r) := f containerID applicationID (remote w) in
  (res, {| remote := r; trace := trace w ++ [Call method containerID applicationID] |}).

(** [tflog.Debug] and [tflog.Info]. *)
Definition tflog (level : LogLevel) (msg : string) (w : World) : World :=
  {| remote := remote w; trace := trace w ++ [Log level msg] |}.

(** The scope-appropriate member of each pair of client methods, as the
    two-way branch on [identifier.Type == AccountType] picks it. *)
Definition get_method (identifier : AccessIdentifier) : string :=
  if String.eqb (Type_ identifier) AccountType
  then "AccessCACertificate" else "ZoneLevelAccessCACertificate".
Definition get_op (client : API) (identifier : AccessIdentifier) :=
  if String.eqb (Type_ identifier) AccountType
  then API_AccessCACertificate client else API_ZoneLevelAccessCACertificate client.
Definition create_method (identifier : AccessIdentifier) : string :=
  if String.eqb (Type_ identifier) AccountType
  then "CreateAccessCACertificate" else "CreateZoneLevelAccessCACertificate".
Definition create_op (client : API) (identifier : AccessIdentifier) :=
  if String.eqb (Type_ identifier) AccountType
  then API_CreateAccessCACertificate client
  else API_CreateZoneLevelAccessCACertificate client.
Definition delete_method (identifier : AccessIdentifier) : string :=
  if String.eqb (Type_ identifier) AccountType
  then "DeleteAccessCACertificate" else "DeleteZoneLevelAccessCACertificate".
Definition delete_op (client : API) (identifier : AccessIdentifier) :=
  if String.eqb (Type_ identifier) AccountType
  then API_DeleteAccessCACertificate client
  else API_DeleteZoneLevelAccessCACertificate client.

(** The world after one client call that left the remote state [r]. *)
Definition called (w : World) (method containerID applicationID : string)
    (r : Remote) : World :=
  {| remote := r; trace := trace w ++ [Call method containerID applicationID] |}.

(** The scope resolver [initIdentifier(d)] lives in another file of the
    provider: it reads [d] and yields the scope or an error. *)
Variable initIdentifier : ResourceData -> AccessIdentifier + error.

(** [strconv.Quote], which the verb [%q] applies to a string. *)
Variable strconv_Quote : string -> string.

Definition hook_result : Type := outcome (Diagnostics * ResourceData * World).

Definition resourceCloudflareAccessCACertificateRead
    (d : ResourceData) (meta : interface) (w : World) : hook_result :=
  match meta with
  | OtherValue => Panicked
  | APIPointer client =>
      let applicationID := d_Get d "application_id" in
      match initIdentifier d with
      | inr err => Returned (diag_FromErr err, d, w)
      | inl identifier =>
          let '(res, w) :=
            if String.eqb (Type_ identifier) AccountType
            then call "AccessCACertificate" (API_AccessCACertificate client)
                   (Value identifier) applicationID w
            else call "ZoneLevelAccessCACertificate" (API_ZoneLevelAccessCACertificate client)
                   (Value identifier) applicationID w in
          match res with
          | inr err =>
              if errors_As_NotFoundError err then
                let w := tflog LevelInfo
                           ("Access CA Certificate " +:+ Id d +:+ " no longer exists") w in
                let d := d_SetId d "" in
                Returned ([], d, w)
              else
                Returned (diag_FromErr
                            (wrapError ("error finding Access CA Certificate "
                                        +:+ strconv_Quote (Id d) +:+ ": " +:+ Error err) err),
                          d, w)
          | inl accessCACert =>
              let d := d_Set d "aud" (Aud accessCACert) in
              let d := d_Set d "public_key" (PublicKey accessCACert) in
              Returned ([], d, w)
          end
      end
  end.

Definition resourceCloudflareAccessCACertificateCreate
    (d : ResourceData) (meta : interface) (w : World) : hook_result :=
  match meta with
  | OtherValue => Panicked
  | APIPointer client =>
      match initIdentifier d with
      | inr err => Returned (diag_FromErr err, d, w)
      | inl identifier =>
          let '(res, w) :=
            if String.eqb (Type_ identifier) AccountType
            then call "CreateAccessCACertificate" (API_CreateAccessCACertificate client)
                   (Value identifier) (d_Get d "application_id") w
            else call "CreateZoneLevelAccessCACertificate"
                   (API_CreateZoneLevelAccessCACertificate client)
                   (Value identifier) (d_Get d "application_id") w in
          match res with
          | inr err =>
              Returned (diag_FromErr
                          (wrapError ("error creating Access CA Certificate for "
                                      +:+ Type_ identifier +:+ " "
                                      +:+ strconv_Quote (Value identifier)
                                      +:+ ": " +:+ Error err) err),
                        d, w)
          | inl accessCACert =>
              let d := d_SetId d (ID accessCACert) in
              resourceCloudflareAccessCACertificateRead d meta w
          end
      end
  end.

Definition resourceCloudflareAccessCACertificateUpdate
    (d : ResourceData) (meta : interface) (w : World) : hook_result :=
  Returned ([], d, w).

Definition resourceCloudflareAccessCACertificateDelete
    (d : ResourceData) (meta : interface) (w : World) : hook_result :=
  match meta with
  | OtherValue => Panicked
  | APIPointer client =>
      let applicationID := d_Get d "application_id" in
      let w := tflog LevelDebug
                 ("Deleting Cloudflare CA Certificate using ID: " +:+ Id d) w in
      match initIdentifier d with
      | inr err => Returned (diag_FromErr err, d, w)
      | inl identifier =>
          let '(err, w) :=
            if String.eqb (Type_ identifier) AccountType
            then call "DeleteAccessCACertificate" (API_DeleteAccessCACertificate client)
                   (Value identifier) applicationID w
            else call "DeleteZoneLevelAccessCACertificate"
                   (API_DeleteZoneLevelAccessCACertificate client)
                   (Value identifier) applicationID w in
          match err with
          | Some err => Returned (diag_FromErr err, d, w)
          | None =>
              let d := d_SetId d "" in
              Returned ([], d, w)
          end
      end
  end.

(** The error of both format checks of Import. *)
Definition invalid_id_error (id : string) : error :=
  errorString ("invalid id (" +:+ dq +:+ id +:+ dq
               +:+ ") specified, should be in format "
               +:+ dq +:+ "account/accountID/accessCACertificateID" +:+ dq
               +:+ " or "
               +:+ dq +:+ "zone/zoneID/accessCACertificateID" +:+ dq).

(** Import returns [([]*schema.ResourceData, error)]; the slice holds the
    pointer [d] itself, so its element is the final [d]. *)
Definition import_result : Type :=
  outcome ((list ResourceData * option error) * ResourceData * World).

Definition resourceCloudflareAccessCACertificateImport
    (d : ResourceData) (meta : interface) (w : World) : import_result :=
  match strings_SplitN (Id d) "/" 3 with
  | [identifierType; identifierID; accessCACertificateID] =>
      if negb (String.eqb identifierType AccountType)
         && negb (String.eqb identifierType ZoneType)
      then Returned (([], Some (invalid_id_error (Id d))), d, w)
      else
        let w := tflog LevelDebug
                   ("Importing Cloudflare Access CA Certificate: id "
                    +:+ accessCACertificateID +:+ " for " +:+ identifierType
                    +:+ " " +:+ identifierID) w in
        let d := d_Set d (identifierType +:+ "_id") identifierID in
        let d := d_SetId d accessCACertificateID in
        match resourceCloudflareAccessCACertificateRead d meta w with
        | Panicked => Panicked
        | Returned (readErr, d, w) =>
            match readErr with
            | _ :: _ =>
                Returned (([], Some (errors_New "failed to read Access CA Certificate state")),
                          d, w)
            | [] => Returned (([d], None), d, w)
            end
        end
  | _ => Returned (([], Some (invalid_id_error (Id d))), d, w)
  end.

End Resource.

Arguments API : clear implicits.
Arguments interface : clear implicits.
Arguments World : clear implicits.

(** ** The import ID, in the words of the specification *)

(** A valid import ID splits on the slash into exactly three non-empty
    segments, the first being exactly account or zone. *)
Definition import_id_valid (id : string) : bool :=
  match strings_Split id "/" with
  | [ty; A; C] =>
      negb (String.eqb ty "") && negb (String.eqb A "") && negb (String.eqb C "")
      && (String.eqb ty AccountType || String.eqb ty ZoneType)
  | _ => false
  end.

(** The IDs the format check of Import turns down: fewer than three
    segments, or a first segment that is neither account nor zone. *)
Definition malformed_id (id : string) : Prop :=
  length (strings_Split id "/") < 3
  \/ (head (strings_Split id "/") <> Some AccountType
      /\ head (strings_Split id "/") <> Some ZoneType).

(** The text [msg] names [form]. *)
Definition names (msg form : string) : Prop :=
  exists before after, msg = before +:+ form +:+ after.

(** What Import makes of the outcome of its Read: the generic error when
    Read reported a diagnostic, the one-element slice holding [d]
    otherwise. *)
Definition import_after_read {Remote : Type}
    (r : outcome (Diagnostics * ResourceData * World Remote))
    : outcome ((list ResourceData * option error) * ResourceData * World Remote) :=
  match r with
  | Panicked => Panicked
  | Returned (readErr, d, w) =>
      match readErr with
      | _ :: _ =>
          Returned (([], Some (errors_New "failed to read Access CA Certificate state")),
                    d, w)
      | [] => Returned (([d], None), d, w)
      end
  end.

(** ** Stand-ins for running the hooks on concrete inputs *)

(** Modelled from the spec: the scope resolver [initIdentifier] is declared
    in another file of the provider. Given the local configuration it
    yields Account or Zone with the container value, or fails if neither or
    both scope fields are set. The spec fixes no error text; the two texts
    below only tell the cases apart. The theorems hold for every resolver;
    this one is used where a hook is run on a concrete input. *)
Definition spec_initIdentifier (d : ResourceData) : AccessIdentifier + error :=
  let accountID := d_Get d "account_id" in
  let zoneID := d_Get d "zone_id" in
  if String.eqb accountID "" then
    if String.eqb zoneID "" then inr (errorString "zone_id or account_id required")
    else inl {| Type_ := ZoneType; Value := zoneID |}
  else
    if String.eqb zoneID "" then inl {| Type_ := AccountType; Value := accountID |}
    else inr (errorString "zone_id and account_id are both set").

(** [strconv.Quote] on text that needs no escaping: the text between
    double quotes. *)
Definition quote_plain (s : string) : string := dq +:+ s +:+ dq.

(** A client that answers from a script: each call takes the next answer,
    whatever the method and its arguments. *)
Definition script : Type := list (AccessCACertificate + error).

Definition scripted (containerID applicationID : string) (r : script)
    : (AccessCACertificate + error) * script :=
  match r with
  | answer :: rest => (answer, rest)
  | [] => (inr (errorString "script exhausted"), [])
  end.

Definition scripted_delete (containerID applicationID : string) (r : script)
    : option error * script :=
  match r with
  | inl _ :: rest => (None, rest)
  | inr err :: rest => (Some err, rest)
  | [] => (Some (errorString "script exhausted"), [])
  end.

Definition scripted_client : API script := {|
  API_CreateAccessCACertificate := scripted;
  API_CreateZoneLevelAccessCACertificate := scripted;
  API_AccessCACertificate := scripted;
  API_ZoneLevelAccessCACertificate := scripted;
  API_DeleteAccessCACertificate := scripted_delete;
  API_DeleteZoneLevelAccessCACertificate := scripted_delete;
|}.

Definition start (r : script) : World script := {| remote := r; trace := [] |}.

Definition cert789 : AccessCACertificate :=
  {| ID := "cert789"; Aud := "aud-tag"; PublicKey := "ecdsa-sha2-nistp256 AAAA" |}.

Definition in_account (id : string) : ResourceData :=
  {| Id := id;
     attributes := <["account_id" := "acc123"]> (<["application_id" := "app456"]> ∅) |}.

Definition in_zone (id : string) : ResourceData :=
  {| Id := id;
     attributes := <["zone_id" := "zone123"]> (<["application_id" := "app456"]> ∅) |}.

Definition importing (id : string) : ResourceData :=
  {| Id := id; attributes := ∅ |}.

Definition account_acc123 : AccessIdentifier :=
  {| Type_ := AccountType; Value := "acc123" |}.

Definition zone_zone123 : AccessIdentifier :=
  {| Type_ := ZoneType; Value := "zone123" |}.

(** What the remote create answers with; its [Aud] and [PublicKey] differ
    from those of [cert789], which the remote get answers with. *)
Definition cert_created : AccessCACertificate :=
  {| ID := "cert789"; Aud := "aud-at-create"; PublicKey := "key-at-create" |}.

Definition not_found : error := NotFoundError "HTTP status 404".

Definition outage : error := errorString "HTTP status 503".

(** ** Splitting on one byte *)

Lemma strings_Cut_None s sep :
  strings_Cut s sep = None <-> strings_Contains s sep = false.
Proof.
  induction s as [|c s IH]; simpl; [done|].
  destruct (Ascii.eqb c sep); [done|].
  destruct (strings_Cut s sep) as [[before after]|].
  - split; [done|]. intros H. apply IH in H. done.
  - split; [|done]. intros _. by apply IH.
Qed.

Lemma strings_Cut_app before after sep :
  strings_Contains before sep = false ->
  strings_Cut (before +:+ String sep after) sep = Some (before, after).
Proof.
  induction before as [|c s IH]; simpl.
  - intros _. by rewrite Ascii.eqb_refl.
  - destruct (Ascii.eqb c sep); [done|]. intros H. by rewrite (IH H).
Qed.

(** [strings.Split] cuts at the first separator and goes on with the rest. *)
Lemma strings_Split_Cut s sep :
  strings_Split s sep =
  match strings_Cut s sep with
  | None => [s]
  | Some (before, after) => before :: strings_Split after sep
  end.
Proof.
  induction s as [|c s IH]; simpl; [done|].
  destruct (Ascii.eqb c sep); [done|].
  rewrite IH. by destruct (strings_Cut s sep) as [[before after]|].
Qed.

Lemma strings_Split_length_pos s sep : 1 <= length (strings_Split s sep).
Proof.
  rewrite strings_Split_Cut.
  destruct (strings_Cut s sep) as [[before after]|]; simpl; lia.
Qed.

(** [strings.SplitN] keeps the first [n] segments' worth of cuts. *)
Lemma strings_SplitN_length s sep n :
  length (strings_SplitN s sep n) = Nat.min n (length (strings_Split s sep)).
Proof.
  revert s. induction n as [|n IH]; intros s; [done|].
  pose proof (strings_Split_length_pos s sep) as Hpos.
  destruct n as [|n].
  { change (strings_SplitN s sep 1) with [s]. rewrite length_cons, length_nil. lia. }
  change (strings_SplitN s sep (S (S n))) with
    (match strings_Cut s sep with
     | None => [s]
     | Some (before, after) => before :: strings_SplitN after sep (S n)
     end).
  rewrite (strings_Split_Cut s).
  destruct (strings_Cut s sep) as [[before after]|].
  - rewrite !length_cons, IH. lia.
  - rewrite length_cons, length_nil. lia.
Qed.

Lemma strings_SplitN_head s sep n :
  head (strings_SplitN s sep (S (S n))) = head (strings_Split s sep).
Proof.
  change (strings_SplitN s sep (S (S n))) with
    (match strings_Cut s sep with
     | None => [s]
     | Some (before, after) => before :: strings_SplitN after sep (S n)
     end).
  rewrite (strings_Split_Cut s).
  by destruct (strings_Cut s sep) as [[before after]|].
Qed.

(** An ID of the shape [ty/A/C], with no slash in [ty] or [A], splits into
    these three parts; [C] may hold further slashes. *)
Lemma strings_SplitN_composite ty A C :
  strings_Contains ty "/" = false ->
  strings_Contains A "/" = false ->
  strings_SplitN (ty +:+ "/" +:+ A +:+ "/" +:+ C) "/" 3 = [ty; A; C].
Proof.
  intros Hty HA. simpl.
  change ("/" +:+ A +:+ "/" +:+ C) with (String "/" (A +:+ String "/" C)).
  rewrite (strings_Cut_app ty _ "/" Hty).
  by rewrite (strings_Cut_app A C "/" HA).
Qed.

(** ** Reading the hooks *)

Lemma calls_app tr1 tr2 : calls (tr1 ++ tr2) = calls tr1 ++ calls tr2.
Proof. apply List.filter_app. Qed.

Section Properties.

Context {Remote : Type}.
Variable initIdentifier : ResourceData -> AccessIdentifier + error.
Variable strconv_Quote : string -> string.

Local Abbreviation Read := (resourceCloudflareAccessCACertificateRead initIdentifier strconv_Quote).
Local Abbreviation Create := (resourceCloudflareAccessCACertificateCreate initIdentifier strconv_Quote).
Local Abbreviation Delete := (resourceCloudflareAccessCACertificateDelete initIdentifier).
Local Abbreviation Import := (resourceCloudflareAccessCACertificateImport initIdentifier strconv_Quote).

Implicit Types (d : ResourceData) (w : World Remote) (client : API Remote)
  (meta : interface Remote) (identifier : AccessIdentifier).

Lemma call_called {A} method (f : string -> string -> Remote -> A * Remote)
    containerID applicationID w res r :
  f containerID applicationID (remote w) = (res, r) ->
  call method f containerID applicationID w
  = (res, called w method containerID applicationID r).
Proof. intros H. unfold call. by rewrite H. Qed.

(** Read on a resolved scope, by the answer of the remote get. *)
Lemma Read_resolved d client w identifier res r :
  initIdentifier d = inl identifier ->
  get_op client identifier (Value identifier) (d_Get d "application_id") (remote w)
  = (res, r) ->
  Read d (APIPointer client) w =
  let w1 := called w (get_method identifier) (Value identifier)
              (d_Get d "application_id") r in
  match res with
  | inr err =>
      if errors_As_NotFoundError err then
        Returned ([], d_SetId d "",
                  tflog LevelInfo
                    ("Access CA Certificate " +:+ Id d +:+ " no longer exists") w1)
      else
        Returned (diag_FromErr
                    (wrapError ("error finding Access CA Certificate "
                                +:+ strconv_Quote (Id d) +:+ ": " +:+ Error err) err),
                  d, w1)
  | inl accessCACert =>
      Returned ([], d_Set (d_Set d "aud" (Aud accessCACert))
                      "public_key" (PublicKey accessCACert), w1)
  end.
Proof.
  intros Hid Hget. unfold resourceCloudflareAccessCACertificateRead.
  rewrite Hid. unfold get_op, get_method in *.
  destruct (String.eqb (Type_ identifier) AccountType);
    rewrite (call_called _ _ _ _ _ _ _ Hget); by destruct res.
Qed.

(** Read never touches an attribute other than [aud] and [public_key]. *)
Lemma Read_frame d meta w diags d' w' key :
  Read d meta w = Returned (diags, d', w') ->
  key <> "aud" -> key <> "public_key" ->
  attributes d' !! key = attributes d !! key.
Proof.
  intros HR Haud Hpk. destruct meta as [client|]; [|done].
  destruct (initIdentifier d) as [identifier|err] eqn:Hid.
  - destruct (get_op client identifier (Value identifier)
                (d_Get d "application_id") (remote w)) as [res r] eqn:Hget.
    rewrite (Read_resolved _ _ _ _ _ _ Hid Hget) in HR. cbv zeta in HR.
    destruct res as [cert|err].
    + injection HR as _ <- _. simpl. by rewrite !lookup_insert_ne.
    + destruct (errors_As_NotFoundError err); by injection HR as _ <- _.
  - unfold resourceCloudflareAccessCACertificateRead in HR. rewrite Hid in HR.
    by injection HR as _ <- _.
Qed.

(** A Read that reports a diagnostic leaves [d] as it was. *)
Lemma Read_diag_keeps_d d meta w diags d' w' :
  Read d meta w = Returned (diags, d', w') -> diags <> [] -> d' = d.
Proof.
  intros HR Hne. destruct meta as [client|]; [|done].
  destruct (initIdentifier d) as [identifier|err] eqn:Hid.
  - destruct (get_op client identifier (Value identifier)
                (d_Get d "application_id") (remote w)) as [res r] eqn:Hget.
    rewrite (Read_resolved _ _ _ _ _ _ Hid Hget) in HR. cbv zeta in HR.
    destruct res as [cert|err].
    + injection HR as <- _ _. done.
    + destruct (errors_As_NotFoundError err).
      * injection HR as <- _ _. done.
      * by injection HR as _ <- _.
  - unfold resourceCloudflareAccessCACertificateRead in HR. rewrite Hid in HR.
    by injection HR as _ <- _.
Qed.

(** The client calls of one Read: one get when the scope resolves, none
    otherwise. *)
Lemma Read_calls d client w diags d' w' :
  Read d (APIPointer client) w = Returned (diags, d', w') ->
  calls (trace w') =
  calls (trace w) ++
  match initIdentifier d with
  | inl identifier =>
      [Call (get_method identifier) (Value identifier) (d_Get d "application_id")]
  | inr _ => []
  end.
Proof.
  intros HR.
  destruct (initIdentifier d) as [identifier|err] eqn:Hid.
  - destruct (get_op client identifier (Value identifier)
                (d_Get d "application_id") (remote w)) as [res r] eqn:Hget.
    rewrite (Read_resolved _ _ _ _ _ _ Hid Hget) in HR. cbv zeta in HR.
    destruct res as [cert|err].
    + injection HR as _ _ <-. simpl. by rewrite calls_app.
    + destruct (errors_As_NotFoundError err); injection HR as _ _ <-; simpl.
      * by rewrite !calls_app, app_nil_r.
      * by rewrite calls_app.
  - unfold resourceCloudflareAccessCACertificateRead in HR. rewrite Hid in HR.
    injection HR as _ _ <-. by rewrite app_nil_r.
Qed.


(** ** Read *)

(** C2: for every state whose scope resolves, if the remote get invoked by
    Read fails with a Not-Found error, Read sets the local identifier to
    the empty string and returns no diagnostics; and a repeated Read on the
    resulting state (scope resolving, remote get Not-Found again) returns
    no diagnostics and the same empty-identifier state. *)
Theorem Read_not_found_clears_identifier d client w identifier err r :
  initIdentifier d = inl identifier ->
  get_op client identifier (Value identifier) (d_Get d "application_id") (remote w)
  = (inr err, r) ->
  errors_As_NotFoundError err = true ->
  exists w1,
    Read d (APIPointer client) w = Returned ([], d_SetId d "", w1)
    /\ Id (d_SetId d "") = ""
    /\ remote w1 = r
    /\ forall identifier' err' r',
         initIdentifier (d_SetId d "") = inl identifier' ->
         get_op client identifier' (Value identifier')
           (d_Get (d_SetId d "") "application_id") (remote w1) = (inr err', r') ->
         errors_As_NotFoundError err' = true ->
         exists w2,
           Read (d_SetId d "") (APIPointer client) w1
           = Returned ([], d_SetId d "", w2).
Proof.
  intros Hid Hget Hnf.
  eexists. split; [|split; [done|split]].
  - rewrite (Read_resolved _ _ _ _ _ _ Hid Hget). cbv zeta. rewrite Hnf. done.
  - done.
  - intros identifier' err' r' Hid' Hget' Hnf'.
    eexists. rewrite (Read_resolved _ _ _ _ _ _ Hid' Hget'). cbv zeta.
    rewrite Hnf'. done.
Qed.

(** C10: when Read takes the Not-Found branch, the only change to the local
    state is the cleared identifier: every attribute ([aud], [public_key],
    [application_id], [account_id], [zone_id] among them) keeps its prior
    value. *)
Theorem Read_not_found_keeps_attributes d client w identifier err r :
  initIdentifier d = inl identifier ->
  get_op client identifier (Value identifier) (d_Get d "application_id") (remote w)
  = (inr err, r) ->
  errors_As_NotFoundError err = true ->
  exists diags d' w',
    Read d (APIPointer client) w = Returned (diags, d', w')
    /\ attributes d' = attributes d
    /\ (forall key, d_Get d' key = d_Get d key)
    /\ d' = {| Id := ""; attributes := attributes d |}.
Proof.
  intros Hid Hget Hnf.
  eexists _, _, _. split.
  - rewrite (Read_resolved _ _ _ _ _ _ Hid Hget). cbv zeta. rewrite Hnf. done.
  - done.
Qed.

(** C7: whenever the remote get invoked by Read succeeds, Read overwrites
    [aud] and [public_key] from the fetched entity and returns no
    diagnostics; the local identifier and every other attribute
    ([application_id] and the scope container fields among them) are left
    as they were. *)
Theorem Read_success_overwrites_aud_and_public_key d client w identifier cert r :
  initIdentifier d = inl identifier ->
  get_op client identifier (Value identifier) (d_Get d "application_id") (remote w)
  = (inl cert, r) ->
  exists d' w',
    Read d (APIPointer client) w = Returned ([], d', w')
    /\ d_Get d' "aud" = Aud cert
    /\ d_Get d' "public_key" = PublicKey cert
    /\ Id d' = Id d
    /\ (forall key, key <> "aud" -> key <> "public_key" ->
          attributes d' !! key = attributes d !! key)
    /\ d_Get d' "application_id" = d_Get d "application_id"
    /\ d_Get d' "account_id" = d_Get d "account_id"
    /\ d_Get d' "zone_id" = d_Get d "zone_id".
Proof.
  intros Hid Hget.
  eexists _, _. split.
  { rewrite (Read_resolved _ _ _ _ _ _ Hid Hget). cbv zeta. done. }
  unfold d_Get, d_Set; simpl.
  rewrite lookup_insert_ne, !lookup_insert_eq by done.
  repeat split; try done.
  - intros key Haud Hpk. by rewrite !lookup_insert_ne.
  - by rewrite !lookup_insert_ne.
  - by rewrite !lookup_insert_ne.
  - by rewrite !lookup_insert_ne.
Qed.


(** ** Create *)

(** Create on a resolved scope, by the answer of the remote create. *)
Lemma Create_resolved d client w identifier res r :
  initIdentifier d = inl identifier ->
  create_op client identifier (Value identifier) (d_Get d "application_id") (remote w)
  = (res, r) ->
  Create d (APIPointer client) w =
  let w1 := called w (create_method identifier) (Value identifier)
              (d_Get d "application_id") r in
  match res with
  | inr err =>
      Returned (diag_FromErr
                  (wrapError ("error creating Access CA Certificate for "
                              +:+ Type_ identifier +:+ " "
                              +:+ strconv_Quote (Value identifier)
                              +:+ ": " +:+ Error err) err),
                d, w1)
  | inl accessCACert => Read (d_SetId d (ID accessCACert)) (APIPointer client) w1
  end.
Proof.
  intros Hid Hcreate. unfold resourceCloudflareAccessCACertificateCreate.
  rewrite Hid. unfold create_op, create_method in *.
  destruct (String.eqb (Type_ identifier) AccountType);
    rewrite (call_called _ _ _ _ _ _ _ Hcreate); by destruct res.
Qed.

(** C4: whenever the scope resolves and the scope-appropriate remote create
    succeeds, Create stores the returned identifier as the local identifier
    and then performs one Read on that state (its client calls: the create,
    then the get of that single Read); when the remote create fails, Create
    performs no Read and fails with an error that wraps the remote error
    and whose text holds the scope kind and the quoted scope value. *)
Theorem Create_stores_identifier_then_reads_once d client w identifier :
  initIdentifier d = inl identifier ->
  (forall cert r,
     create_op client identifier (Value identifier) (d_Get d "application_id") (remote w)
     = (inl cert, r) ->
     let d1 := d_SetId d (ID cert) in
     let w1 := called w (create_method identifier) (Value identifier)
                 (d_Get d "application_id") r in
     Id d1 = ID cert
     /\ attributes d1 = attributes d
     /\ Create d (APIPointer client) w = Read d1 (APIPointer client) w1
     /\ forall diags d2 w2,
          Create d (APIPointer client) w = Returned (diags, d2, w2) ->
          calls (trace w2) =
          calls (trace w)
          ++ [Call (create_method identifier) (Value identifier) (d_Get d "application_id")]
          ++ match initIdentifier d1 with
             | inl identifier1 =>
                 [Call (get_method identifier1) (Value identifier1)
                    (d_Get d1 "application_id")]
             | inr _ => []
             end)
  /\ (forall err r,
        create_op client identifier (Value identifier) (d_Get d "application_id") (remote w)
        = (inr err, r) ->
        let wrapped :=
          wrapError ("error creating Access CA Certificate for "
                     +:+ Type_ identifier +:+ " " +:+ strconv_Quote (Value identifier)
                     +:+ ": " +:+ Error err) err in
        Create d (APIPointer client) w =
        Returned (diag_FromErr wrapped, d,
                  called w (create_method identifier) (Value identifier)
                    (d_Get d "application_id") r)
        /\ errors_Unwrap wrapped = Some err).
Proof.
  intros Hid. split.
  - intros cert r Hcreate d1 w1.
    pose proof (Create_resolved _ _ _ _ _ _ Hid Hcreate) as HC. cbv zeta in HC.
    fold d1 w1 in HC.
    split; [done|]. split; [done|]. split; [done|].
    intros diags d2 w2 Hret. rewrite HC in Hret.
    rewrite (Read_calls _ _ _ _ _ _ Hret).
    subst w1. simpl. by rewrite calls_app, <-app_assoc.
  - intros err r Hcreate wrapped.
    pose proof (Create_resolved _ _ _ _ _ _ Hid Hcreate) as HC. cbv zeta in HC.
    done.
Qed.

(** C9: if the remote create succeeds but the Read at the end of Create
    fails with an error that is not Not-Found, Create returns that Read's
    fatal diagnostic, the local identifier stays the one the remote create
    returned, and nothing is rolled back: the only client calls are the
    create and the get. *)
Theorem Create_read_failure_keeps_identifier
    d client w identifier cert r1 identifier1 err r2 :
  initIdentifier d = inl identifier ->
  create_op client identifier (Value identifier) (d_Get d "application_id") (remote w)
  = (inl cert, r1) ->
  initIdentifier (d_SetId d (ID cert)) = inl identifier1 ->
  get_op client identifier1 (Value identifier1) (d_Get d "application_id") r1
  = (inr err, r2) ->
  errors_As_NotFoundError err = false ->
  exists d' w',
    Create d (APIPointer client) w =
    Returned (diag_FromErr
                (wrapError ("error finding Access CA Certificate "
                            +:+ strconv_Quote (ID cert) +:+ ": " +:+ Error err) err),
              d', w')
    /\ Id d' = ID cert
    /\ d' = d_SetId d (ID cert)
    /\ remote w' = r2
    /\ trace w' =
       trace w
       ++ [Call (create_method identifier) (Value identifier) (d_Get d "application_id");
           Call (get_method identifier1) (Value identifier1) (d_Get d "application_id")].
Proof.
  intros Hid Hcreate Hid1 Hget Hnf.
  eexists _, _. split.
  - rewrite (Create_resolved _ _ _ _ _ _ Hid Hcreate). cbv zeta.
    rewrite (Read_resolved (d_SetId d (ID cert)) client
               (called w (create_method identifier) (Value identifier)
                  (d_Get d "application_id") r1)
               identifier1 (inr err) r2 Hid1 Hget).
    cbv zeta. rewrite Hnf. done.
  - simpl. by rewrite <-app_assoc.
Qed.

(** ** Update *)

(** C6: for every input state and every meta value, Update returns no
    diagnostics and leaves the local state, the remote state and the trace
    (so: no remote call) as they were. *)
Theorem Update_is_a_no_op d meta w :
  resourceCloudflareAccessCACertificateUpdate d meta w = Returned ([], d, w)
  /\ forall diags d' w',
       resourceCloudflareAccessCACertificateUpdate d meta w = Returned (diags, d', w') ->
       diags = [] /\ d' = d /\ remote w' = remote w /\ calls (trace w') = calls (trace w).
Proof.
  split; [done|]. intros diags d' w' [= <- <- <-]. done.
Qed.

(** ** Delete *)

(** Delete on a resolved scope, by the answer of the remote delete. *)
Lemma Delete_resolved d client w identifier res r :
  initIdentifier d = inl identifier ->
  delete_op client identifier (Value identifier) (d_Get d "application_id") (remote w)
  = (res, r) ->
  Delete d (APIPointer client) w =
  let w1 := called (tflog LevelDebug
                      ("Deleting Cloudflare CA Certificate using ID: " +:+ Id d) w)
              (delete_method identifier) (Value identifier)
              (d_Get d "application_id") r in
  match res with
  | Some err => Returned (diag_FromErr err, d, w1)
  | None => Returned ([], d_SetId d "", w1)
  end.
Proof.
  intros Hid Hdelete. unfold resourceCloudflareAccessCACertificateDelete.
  rewrite Hid. unfold delete_op, delete_method in *.
  destruct (String.eqb (Type_ identifier) AccountType);
    rewrite (call_called _ _ _ _ (tflog _ _ w) _ _ Hdelete); by destruct res.
Qed.

(** C5: for every state whose scope resolves: if the scope-appropriate
    remote delete succeeds, Delete clears the local identifier and returns
    no diagnostics; if it fails, Delete leaves the local state unchanged
    and returns one error-severity diagnostic whose summary is the text of
    the raw error. *)
Theorem Delete_clears_identifier_on_success_only d client w identifier :
  initIdentifier d = inl identifier ->
  (forall r,
     delete_op client identifier (Value identifier) (d_Get d "application_id") (remote w)
     = (None, r) ->
     exists d' w',
       Delete d (APIPointer client) w = Returned ([], d', w')
       /\ Id d' = "" /\ attributes d' = attributes d /\ remote w' = r)
  /\ (forall err r,
        delete_op client identifier (Value identifier) (d_Get d "application_id") (remote w)
        = (Some err, r) ->
        exists w',
          Delete d (APIPointer client) w =
          Returned ([ {| diag_Severity := SevError; diag_Summary := Error err;
                         diag_Detail := "" |} ], d, w')
          /\ remote w' = r).
Proof.
  intros Hid. split.
  - intros r Hdelete. eexists _, _.
    rewrite (Delete_resolved _ _ _ _ _ _ Hid Hdelete). cbv zeta. done.
  - intros err r Hdelete. eexists.
    rewrite (Delete_resolved _ _ _ _ _ _ Hid Hdelete). cbv zeta. done.
Qed.


(** ** Import *)

Lemma string_app_assoc (a b c : string) : (a +:+ b) +:+ c = a +:+ (b +:+ c).
Proof.
  induction a as [|x a IH]; [done|].
  change (String x ((a +:+ b) +:+ c) = String x (a +:+ (b +:+ c))). by rewrite IH.
Qed.

(** The format error names both accepted forms of the ID. *)
Lemma invalid_id_error_names_both_forms id :
  names (Error (invalid_id_error id)) "account/accountID/accessCACertificateID"
  /\ names (Error (invalid_id_error id)) "zone/zoneID/accessCACertificateID".
Proof.
  unfold names, invalid_id_error, Error. split.
  - exists ("invalid id (" +:+ dq +:+ id +:+ dq
            +:+ ") specified, should be in format " +:+ dq),
           (dq +:+ " or " +:+ dq +:+ "zone/zoneID/accessCACertificateID" +:+ dq).
    by rewrite !string_app_assoc.
  - exists ("invalid id (" +:+ dq +:+ id +:+ dq
            +:+ ") specified, should be in format "
            +:+ dq +:+ "account/accountID/accessCACertificateID" +:+ dq
            +:+ " or " +:+ dq),
           dq.
    by rewrite !string_app_assoc.
Qed.

(** Import when [SplitN] gives three parts. *)
Lemma Import_three_parts d meta w ty A C :
  strings_SplitN (Id d) "/" 3 = [ty; A; C] ->
  Import d meta w =
  if negb (String.eqb ty AccountType) && negb (String.eqb ty ZoneType)
  then Returned (([], Some (invalid_id_error (Id d))), d, w)
  else import_after_read
         (Read (d_SetId (d_Set d (ty +:+ "_id") A) C) meta
            (tflog LevelDebug
               ("Importing Cloudflare Access CA Certificate: id "
                +:+ C +:+ " for " +:+ ty +:+ " " +:+ A) w)).
Proof.
  intros H. unfold resourceCloudflareAccessCACertificateImport. rewrite H.
  destruct (negb (String.eqb ty AccountType) && negb (String.eqb ty ZoneType)); [done|].
  unfold import_after_read.
  destruct (Read _ meta _) as [[[readErr d2] w2]|]; [|done]. by destruct readErr.
Qed.

(** Import when [SplitN] gives fewer than three parts. *)
Lemma Import_fewer_parts d meta w :
  length (strings_SplitN (Id d) "/" 3) <> 3 ->
  Import d meta w = Returned (([], Some (invalid_id_error (Id d))), d, w).
Proof.
  intros H. unfold resourceCloudflareAccessCACertificateImport.
  destruct (strings_SplitN (Id d) "/" 3) as [|p1 [|p2 [|p3 [|p4 rest]]]]; try done.
Qed.

(** Import on an ID of the shape [ty/A/C]. *)
Lemma Import_composite d meta w ty A C :
  ty = AccountType \/ ty = ZoneType ->
  strings_Contains A "/" = false ->
  Id d = ty +:+ "/" +:+ A +:+ "/" +:+ C ->
  Import d meta w =
  import_after_read
    (Read (d_SetId (d_Set d (ty +:+ "_id") A) C) meta
       (tflog LevelDebug
          ("Importing Cloudflare Access CA Certificate: id "
           +:+ C +:+ " for " +:+ ty +:+ " " +:+ A) w)).
Proof.
  intros Hty HA HId.
  assert (strings_SplitN (Id d) "/" 3 = [ty; A; C]) as Hsplit.
  { rewrite HId. apply strings_SplitN_composite; [|done].
    by destruct Hty as [-> | ->]. }
  rewrite (Import_three_parts _ _ _ _ _ _ Hsplit).
  by destruct Hty as [-> | ->].
Qed.

(** C1, as the code has it: for every import ID with fewer than three
    slash-separated segments, or whose first segment is not exactly account
    or zone, Import fails with the format error, which names both accepted
    forms, and changes neither the local state nor the world (no call, no
    log line). *)
Theorem Import_rejects_malformed_id d meta w :
  length (strings_Split (Id d) "/") < 3
  \/ (head (strings_Split (Id d) "/") <> Some AccountType
      /\ head (strings_Split (Id d) "/") <> Some ZoneType) ->
  Import d meta w = Returned (([], Some (invalid_id_error (Id d))), d, w)
  /\ names (Error (invalid_id_error (Id d))) "account/accountID/accessCACertificateID"
  /\ names (Error (invalid_id_error (Id d))) "zone/zoneID/accessCACertificateID".
Proof.
  intros H. split; [|apply invalid_id_error_names_both_forms].
  destruct (decide (length (strings_SplitN (Id d) "/" 3) = 3)) as [Hlen|Hlen];
    [|by apply Import_fewer_parts].
  pose proof (strings_SplitN_length (Id d) "/" 3) as Hmin.
  pose proof (strings_SplitN_head (Id d) "/" 1) as Hhead.
  destruct (strings_SplitN (Id d) "/" 3) as [|ty [|A [|C [|p4 rest]]]] eqn:Hsplit;
    try done.
  rewrite (Import_three_parts _ _ _ _ _ _ Hsplit).
  rewrite !length_cons, length_nil in Hmin.
  destruct H as [Hshort | [Hacc Hzone]]; [lia|].
  rewrite <-Hhead in Hacc, Hzone. simpl in Hacc, Hzone.
  destruct (String.eqb_spec ty AccountType) as [->|_]; [done|].
  destruct (String.eqb_spec ty ZoneType) as [->|_]; [done|].
  done.
Qed.

(** C3: for every composite import ID account/A/C (resp. zone/Z/C), Import
    sets [account_id] to A (resp. [zone_id] to Z) and the local identifier
    to C, leaves every other attribute (the scope field of the other kind
    among them) as it was, and then runs Read once on that state: its
    result is what that one Read leaves, and its client calls are those of
    that one Read. *)
Theorem Import_sets_scope_and_identifier_then_reads_once d meta w ty A C :
  ty = AccountType \/ ty = ZoneType ->
  strings_Contains A "/" = false ->
  Id d = ty +:+ "/" +:+ A +:+ "/" +:+ C ->
  let d1 := d_SetId (d_Set d (ty +:+ "_id") A) C in
  let w1 := tflog LevelDebug
              ("Importing Cloudflare Access CA Certificate: id "
               +:+ C +:+ " for " +:+ ty +:+ " " +:+ A) w in
  d_Get d1 (ty +:+ "_id") = A
  /\ Id d1 = C
  /\ (forall key, key <> ty +:+ "_id" -> attributes d1 !! key = attributes d !! key)
  /\ (ty = AccountType ->
      d_Get d1 "account_id" = A
      /\ attributes d1 !! "zone_id" = attributes d !! "zone_id")
  /\ (ty = ZoneType ->
      d_Get d1 "zone_id" = A
      /\ attributes d1 !! "account_id" = attributes d !! "account_id")
  /\ Import d meta w = import_after_read (Read d1 meta w1)
  /\ forall client res d2 w2,
       meta = APIPointer client ->
       Import d meta w = Returned (res, d2, w2) ->
       calls (trace w2) =
       calls (trace w)
       ++ match initIdentifier d1 with
          | inl identifier =>
              [Call (get_method identifier) (Value identifier)
                 (d_Get d1 "application_id")]
          | inr _ => []
          end
       /\ forall key, key <> ty +:+ "_id" -> key <> "aud" -> key <> "public_key" ->
            attributes d2 !! key = attributes d !! key.
Proof.
  intros Hty HA HId d1 w1.
  pose proof (Import_composite d meta w ty A C Hty HA HId) as HI. fold d1 w1 in HI.
  assert (forall key, key <> ty +:+ "_id" -> attributes d1 !! key = attributes d !! key)
    as Hframe.
  { intros key Hkey. simpl. by rewrite lookup_insert_ne. }
  assert (d_Get d1 (ty +:+ "_id") = A) as Hset.
  { unfold d_Get; simpl. by rewrite lookup_insert_eq. }
  split; [exact Hset|].
  split; [done|]. split; [exact Hframe|].
  split. { intros Heq. split; [by rewrite Heq in Hset | apply Hframe; by rewrite Heq]. }
  split. { intros Heq. split; [by rewrite Heq in Hset | apply Hframe; by rewrite Heq]. }
  split; [exact HI|].
  intros client res d2 w2 -> Hret. rewrite HI in Hret.
  destruct (Read d1 (APIPointer client) w1) as [[[readErr d' ] w']|] eqn:HR; [|done].
  assert (d' = d2 /\ w' = w2) as [-> ->].
  { simpl in Hret. destruct readErr; by injection Hret as _ <- <-. }
  split.
  - rewrite (Read_calls _ _ _ _ _ _ HR). subst w1. simpl.
    by rewrite calls_app, app_nil_r.
  - intros key Hkey Haud Hpk.
    rewrite (Read_frame _ _ _ _ _ _ _ HR Haud Hpk). by apply Hframe.
Qed.

(** C8: for every well-formed import ID, if the Read invoked by Import
    returns any diagnostic, Import fails with the fixed error
    [failed to read Access CA Certificate state]: the same error whatever
    the diagnostics are, with no wrapped cause. *)
Theorem Import_read_failure_is_generic d meta w ty A C readErr d2 w2 :
  ty = AccountType \/ ty = ZoneType ->
  strings_Contains A "/" = false ->
  Id d = ty +:+ "/" +:+ A +:+ "/" +:+ C ->
  Read (d_SetId (d_Set d (ty +:+ "_id") A) C) meta
    (tflog LevelDebug
       ("Importing Cloudflare Access CA Certificate: id "
        +:+ C +:+ " for " +:+ ty +:+ " " +:+ A) w)
  = Returned (readErr, d2, w2) ->
  readErr <> [] ->
  exists err,
    Import d meta w = Returned (([], Some err), d2, w2)
    /\ err = errors_New "failed to read Access CA Certificate state"
    /\ Error err = "failed to read Access CA Certificate state"
    /\ errors_Unwrap err = None.
Proof.
  intros Hty HA HId HR Hne.
  eexists. split; [|done].
  rewrite (Import_composite d meta w ty A C Hty HA HId), HR.
  simpl. by destruct readErr.
Qed.

End Properties.

(** ** The theorems at concrete inputs *)

Local Abbreviation Read0 :=
  (resourceCloudflareAccessCACertificateRead spec_initIdentifier quote_plain).
Local Abbreviation Create0 :=
  (resourceCloudflareAccessCACertificateCreate spec_initIdentifier quote_plain).
Local Abbreviation Delete0 :=
  (resourceCloudflareAccessCACertificateDelete spec_initIdentifier).
Local Abbreviation Import0 :=
  (resourceCloudflareAccessCACertificateImport spec_initIdentifier quote_plain).

(** Read on a certificate that is gone, twice in a row. *)
Lemma Read_not_found_clears_identifier_witness :
  exists w1 w2,
    Read0 (in_account "cert789") (APIPointer scripted_client)
      (start [inr not_found; inr not_found])
    = Returned ([], in_account "", w1)
    /\ Read0 (in_account "") (APIPointer scripted_client) w1
       = Returned ([], in_account "", w2).
Proof.
  destruct (Read_not_found_clears_identifier spec_initIdentifier quote_plain
              (in_account "cert789") scripted_client
              (start [inr not_found; inr not_found])
              account_acc123 not_found [inr not_found])
    as (w1 & HR & _ & Hremote & Hrepeat); [reflexivity..|].
  destruct (Hrepeat account_acc123 not_found [])
    as (w2 & HR2); [reflexivity | by rewrite Hremote | reflexivity |].
  exists w1, w2. split; [exact HR | exact HR2].
Defined.

(** Read on a zone-level certificate that is gone. *)
Lemma Read_not_found_keeps_attributes_witness :
  exists diags d' w',
    Read0 (in_zone "cert789") (APIPointer scripted_client) (start [inr not_found])
    = Returned (diags, d', w')
    /\ d' = in_zone "".
Proof.
  destruct (Read_not_found_keeps_attributes spec_initIdentifier quote_plain
              (in_zone "cert789") scripted_client (start [inr not_found])
              zone_zone123 not_found [])
    as (diags & d' & w' & HR & _ & _ & Hd'); [reflexivity..|].
  exists diags, d', w'. split; [exact HR | exact Hd'].
Defined.

(** Read on a certificate that exists. *)
Lemma Read_success_overwrites_aud_and_public_key_witness :
  exists d' w',
    Read0 (in_account "cert789") (APIPointer scripted_client) (start [inl cert789])
    = Returned ([], d', w')
    /\ d_Get d' "aud" = "aud-tag"
    /\ d_Get d' "public_key" = "ecdsa-sha2-nistp256 AAAA"
    /\ Id d' = "cert789"
    /\ d_Get d' "application_id" = "app456"
    /\ d_Get d' "account_id" = "acc123".
Proof.
  destruct (Read_success_overwrites_aud_and_public_key spec_initIdentifier quote_plain
              (in_account "cert789") scripted_client (start [inl cert789])
              account_acc123 cert789 [])
    as (d' & w' & HR & Haud & Hpk & HId & _ & Happ & Hacc & _); [reflexivity..|].
  exists d', w'. repeat split; assumption.
Defined.

(** Create in an account, the remote create and get succeeding; Create in
    a zone, the remote create failing. *)
Lemma Create_stores_identifier_then_reads_once_witness :
  (exists d2 w2,
     Create0 (in_account "") (APIPointer scripted_client)
       (start [inl cert789; inl cert789])
     = Returned ([], d2, w2)
     /\ Id d2 = "cert789"
     /\ calls (trace w2)
        = [Call "CreateAccessCACertificate" "acc123" "app456";
           Call "AccessCACertificate" "acc123" "app456"])
  /\ Create0 (in_zone "") (APIPointer scripted_client) (start [inr outage])
     = Returned
         ([ {| diag_Severity := SevError;
               diag_Summary :=
                 "error creating Access CA Certificate for zone "
                 +:+ dq +:+ "zone123" +:+ dq +:+ ": HTTP status 503";
               diag_Detail := "" |} ],
          in_zone "",
          {| remote := [];
             trace := [Call "CreateZoneLevelAccessCACertificate" "zone123" "app456"] |}).
Proof.
  split.
  - destruct (Create_stores_identifier_then_reads_once spec_initIdentifier quote_plain
                (in_account "") scripted_client (start [inl cert789; inl cert789])
                account_acc123 eq_refl) as [Hok _].
    destruct (Hok cert789 [inl cert789] eq_refl) as (_ & _ & HC & _).
    eexists _, _. split; [rewrite HC; vm_compute; reflexivity|].
    split; reflexivity.
  - destruct (Create_stores_identifier_then_reads_once spec_initIdentifier quote_plain
                (in_zone "") scripted_client (start [inr outage])
                zone_zone123 eq_refl) as [_ Hfail].
    destruct (Hfail outage [] eq_refl) as [HC _]. exact HC.
Defined.

(** Create in an account: the remote create succeeds, the remote get of
    the final Read is down. *)
Lemma Create_read_failure_keeps_identifier_witness :
  exists w',
    Create0 (in_account "") (APIPointer scripted_client)
      (start [inl cert789; inr outage])
    = Returned
        ([ {| diag_Severity := SevError;
              diag_Summary :=
                "error finding Access CA Certificate "
                +:+ dq +:+ "cert789" +:+ dq +:+ ": HTTP status 503";
              diag_Detail := "" |} ],
         in_account "cert789", w')
    /\ trace w' = [Call "CreateAccessCACertificate" "acc123" "app456";
                   Call "AccessCACertificate" "acc123" "app456"].
Proof.
  destruct (Create_read_failure_keeps_identifier spec_initIdentifier quote_plain
              (in_account "") scripted_client (start [inl cert789; inr outage])
              account_acc123 cert789 [inr outage] account_acc123 outage [])
    as (d' & w' & HC & _ & Hd' & _ & Htrace); [reflexivity..|].
  exists w'. rewrite Hd' in HC. split; [exact HC | exact Htrace].
Defined.

(** Delete in an account, the remote delete succeeding and failing. *)
Lemma Delete_clears_identifier_on_success_only_witness :
  (exists w',
     Delete0 (in_account "cert789") (APIPointer scripted_client) (start [inl cert789])
     = Returned ([], in_account "", w'))
  /\ (exists w',
        Delete0 (in_account "cert789") (APIPointer scripted_client) (start [inr outage])
        = Returned ([ {| diag_Severity := SevError;
                         diag_Summary := "HTTP status 503";
                         diag_Detail := "" |} ],
                    in_account "cert789", w')).
Proof.
  destruct (Delete_clears_identifier_on_success_only spec_initIdentifier
              (in_account "cert789") scripted_client (start [inl cert789])
              account_acc123 eq_refl) as [Hok _].
  destruct (Delete_clears_identifier_on_success_only spec_initIdentifier
              (in_account "cert789") scripted_client (start [inr outage])
              account_acc123 eq_refl) as [_ Hfail].
  split.
  - destruct (Hok [] eq_refl) as (d' & w' & HD & HId & Hattrs & _).
    exists w'. rewrite HD. destruct d' as [id' attrs']. simpl in HId, Hattrs.
    by rewrite HId, Hattrs.
  - destruct (Hfail outage [] eq_refl) as (w' & HD & _).
    exists w'. exact HD.
Defined.

(** Import of an ID with two segments, and of one whose first segment is
    capitalised. *)
Lemma Import_rejects_malformed_id_witness :
  Import0 (importing "account/acc123") (APIPointer scripted_client) (start [inl cert789])
  = Returned (([], Some (invalid_id_error "account/acc123")),
              importing "account/acc123", start [inl cert789])
  /\ Import0 (importing "Account/acc123/cert789") (APIPointer scripted_client)
       (start [inl cert789])
     = Returned (([], Some (invalid_id_error "Account/acc123/cert789")),
                 importing "Account/acc123/cert789", start [inl cert789]).
Proof.
  split.
  - refine (proj1 (Import_rejects_malformed_id spec_initIdentifier quote_plain
                     (importing "account/acc123") (APIPointer scripted_client)
                     (start [inl cert789]) _)).
    left. vm_compute. lia.
  - refine (proj1 (Import_rejects_malformed_id spec_initIdentifier quote_plain
                     (importing "Account/acc123/cert789") (APIPointer scripted_client)
                     (start [inl cert789]) _)).
    right. split; discriminate.
Defined.

(** Import of an account-level and of a zone-level certificate. *)
Lemma Import_sets_scope_and_identifier_then_reads_once_witness :
  (exists d2 w2,
     Import0 (importing "account/acc123/cert789") (APIPointer scripted_client)
       (start [inl cert789])
     = Returned (([d2], None), d2, w2)
     /\ Id d2 = "cert789"
     /\ d_Get d2 "account_id" = "acc123"
     /\ attributes d2 !! "zone_id" = None
     /\ calls (trace w2) = [Call "AccessCACertificate" "acc123" ""])
  /\ (exists d2 w2,
        Import0 (importing "zone/zone123/cert789") (APIPointer scripted_client)
          (start [inl cert789])
        = Returned (([d2], None), d2, w2)
        /\ Id d2 = "cert789"
        /\ d_Get d2 "zone_id" = "zone123"
        /\ attributes d2 !! "account_id" = None
        /\ calls (trace w2) = [Call "ZoneLevelAccessCACertificate" "zone123" ""]).
Proof.
  split.
  - destruct (Import_sets_scope_and_identifier_then_reads_once
                spec_initIdentifier quote_plain
                (importing "account/acc123/cert789") (APIPointer scripted_client)
                (start [inl cert789]) AccountType "acc123" "cert789")
      as (_ & _ & _ & _ & _ & HI & _); [by left | reflexivity | reflexivity |].
    eexists _, _. split; [rewrite HI; vm_compute; reflexivity|].
    repeat split; reflexivity.
  - destruct (Import_sets_scope_and_identifier_then_reads_once
                spec_initIdentifier quote_plain
                (importing "zone/zone123/cert789") (APIPointer scripted_client)
                (start [inl cert789]) ZoneType "zone123" "cert789")
      as (_ & _ & _ & _ & _ & HI & _); [by right | reflexivity | reflexivity |].
    eexists _, _. split; [rewrite HI; vm_compute; reflexivity|].
    repeat split; reflexivity.
Defined.

(** Import of a zone-level certificate while the remote get is down. *)
Lemma Import_read_failure_is_generic_witness :
  exists d2 w2,
    Import0 (importing "zone/zone123/cert789") (APIPointer scripted_client)
      (start [inr outage])
    = Returned (([], Some (errorString "failed to read Access CA Certificate state")),
                d2, w2).
Proof.
  edestruct (Import_read_failure_is_generic spec_initIdentifier quote_plain
               (importing "zone/zone123/cert789") (APIPointer scripted_client)
               (start [inr outage]) ZoneType "zone123" "cert789")
    as (err & HI & -> & _);
    [by right | reflexivity | reflexivity | vm_compute; reflexivity | discriminate |].
  eexists _, _. exact HI.
Defined.

(** C1, as the specification words it, fails on the code. An ID of four
    segments is imported (the third part keeps the rest of the text), and
    an ID with an empty middle segment passes the format check, changes the
    local state and fails later, in Read, with the generic error. *)
Lemma Import_accepts_extra_and_empty_segments :
  (import_id_valid "account/acc123/cert789/extra" = false
   /\ Import0 (importing "account/acc123/cert789/extra") (APIPointer scripted_client)
        (start [inl cert789])
      = Returned
          (([ {| Id := "cert789/extra";
                 attributes :=
                   <["public_key" := "ecdsa-sha2-nistp256 AAAA"]>
                     (<["aud" := "aud-tag"]> (<["account_id" := "acc123"]> ∅)) |} ], None),
           {| Id := "cert789/extra";
              attributes :=
                <["public_key" := "ecdsa-sha2-nistp256 AAAA"]>
                  (<["aud" := "aud-tag"]> (<["account_id" := "acc123"]> ∅)) |},
           {| remote := [];
              trace :=
                [Log LevelDebug
                   "Importing Cloudflare Access CA Certificate: id cert789/extra for account acc123";
                 Call "AccessCACertificate" "acc123" ""] |}))
  /\ (import_id_valid "account//cert789" = false
      /\ Import0 (importing "account//cert789") (APIPointer scripted_client)
           (start [inl cert789])
         = Returned
             (([], Some (errorString "failed to read Access CA Certificate state")),
              {| Id := "cert789"; attributes := <["account_id" := ""]> ∅ |},
              {| remote := [inl cert789];
                 trace :=
                   [Log LevelDebug
                      "Importing Cloudflare Access CA Certificate: id cert789 for account "] |})
      /\ errorString "failed to read Access CA Certificate state"
         <> invalid_id_error "account//cert789"
      /\ Id (importing "account//cert789") <> "cert789").
Proof.
  split; [split; vm_compute; reflexivity|].
  split; [vm_compute; reflexivity|].
  split; [vm_compute; reflexivity|].
  split; [vm_compute; discriminate | discriminate].
Qed.

(** ** Further properties of the hooks *)

Section Further.

Context {Remote : Type}.
Variable initIdentifier : ResourceData -> AccessIdentifier + error.
Variable strconv_Quote : string -> string.

Local Abbreviation Read :=
  (resourceCloudflareAccessCACertificateRead initIdentifier strconv_Quote).
Local Abbreviation Create :=
  (resourceCloudflareAccessCACertificateCreate initIdentifier strconv_Quote).
Local Abbreviation Delete :=
  (resourceCloudflareAccessCACertificateDelete initIdentifier).
Local Abbreviation Import :=
  (resourceCloudflareAccessCACertificateImport initIdentifier strconv_Quote).

Implicit Types (d : ResourceData) (w : World Remote) (client : API Remote)
  (meta : interface Remote) (identifier : AccessIdentifier).

(** The three ways a Read returns. *)
Lemma Read_cases d meta w diags d' w' :
  Read d meta w = Returned (diags, d', w') ->
  (exists err, diags = diag_FromErr err /\ d' = d)
  \/ (diags = [] /\ d' = d_SetId d "")
  \/ (diags = [] /\ exists cert,
        d' = d_Set (d_Set d "aud" (Aud cert)) "public_key" (PublicKey cert)).
Proof.
  intros HR. destruct meta as [client|]; [|done].
  destruct (initIdentifier d) as [identifier|err] eqn:Hid.
  - destruct (get_op client identifier (Value identifier)
                (d_Get d "application_id") (remote w)) as [res r] eqn:Hget.
    rewrite (Read_resolved _ _ _ _ _ _ _ _ Hid Hget) in HR. cbv zeta in HR.
    destruct res as [cert|err].
    + injection HR as <- <- _. right. right. eauto.
    + destruct (errors_As_NotFoundError err); injection HR as <- <- _.
      * right. left. done.
      * left. eauto.
  - unfold resourceCloudflareAccessCACertificateRead in HR. rewrite Hid in HR.
    injection HR as <- <- _. left. eauto.
Qed.

(** The two ways a Delete returns, with its client calls. *)
Lemma Delete_cases d meta w diags d' w' :
  Delete d meta w = Returned (diags, d', w') ->
  ((exists err, diags = diag_FromErr err /\ d' = d)
   \/ (diags = [] /\ d' = d_SetId d ""))
  /\ calls (trace w') =
     calls (trace w)
     ++ match initIdentifier d with
        | inl identifier =>
            [Call (delete_method identifier) (Value identifier)
               (d_Get d "application_id")]
        | inr _ => []
        end.
Proof.
  intros HD. destruct meta as [client|]; [|done].
  destruct (initIdentifier d) as [identifier|err] eqn:Hid.
  - destruct (delete_op client identifier (Value identifier)
                (d_Get d "application_id") (remote w)) as [res r] eqn:Hdel.
    rewrite (Delete_resolved _ _ _ _ _ _ _ Hid Hdel) in HD. cbv zeta in HD.
    destruct res as [err|]; injection HD as <- <- <-; simpl;
      rewrite !calls_app, app_nil_r; eauto.
  - unfold resourceCloudflareAccessCACertificateDelete in HD. rewrite Hid in HD.
    injection HD as <- <- <-. simpl. rewrite calls_app, !app_nil_r. eauto.
Qed.


(** X1: when the scope does not resolve, Read, Create and Delete return the
    resolver's error as their only diagnostic, change nothing in the local
    state and make no client call. *)
Theorem scope_failure_stops_before_any_call d client w err :
  initIdentifier d = inr err ->
  Read d (APIPointer client) w = Returned (diag_FromErr err, d, w)
  /\ Create d (APIPointer client) w = Returned (diag_FromErr err, d, w)
  /\ exists w',
       Delete d (APIPointer client) w = Returned (diag_FromErr err, d, w')
       /\ remote w' = remote w
       /\ calls (trace w') = calls (trace w).
Proof.
  intros Hid.
  unfold resourceCloudflareAccessCACertificateRead,
    resourceCloudflareAccessCACertificateCreate,
    resourceCloudflareAccessCACertificateDelete.
  rewrite Hid. split; [done|]. split; [done|].
  eexists. split; [done|]. split; [done|]. simpl. by rewrite calls_app, app_nil_r.
Qed.

(** X2: when the remote get of Read fails with an error that is not
    Not-Found, Read returns one error diagnostic whose summary is
    [error finding Access CA Certificate], the quoted identifier, a colon
    and the text of the remote error; the local state, identifier
    included, is unchanged. *)
Theorem Read_other_failure_reports_and_keeps_state d client w identifier err r :
  initIdentifier d = inl identifier ->
  get_op client identifier (Value identifier) (d_Get d "application_id") (remote w)
  = (inr err, r) ->
  errors_As_NotFoundError err = false ->
  Read d (APIPointer client) w =
  Returned ([ {| diag_Severity := SevError;
                 diag_Summary :=
                   "error finding Access CA Certificate "
                   +:+ strconv_Quote (Id d) +:+ ": " +:+ Error err;
                 diag_Detail := "" |} ],
            d,
            called w (get_method identifier) (Value identifier)
              (d_Get d "application_id") r).
Proof.
  intros Hid Hget Hnf.
  rewrite (Read_resolved _ _ _ _ _ _ _ _ Hid Hget). cbv zeta. by rewrite Hnf.
Qed.

(** X3: whatever Read returns, it leaves every attribute other than [aud]
    and [public_key] as it was; the identifier is either kept or cleared,
    never set to another value; a Read that reports a diagnostic changes
    nothing, and a Read that clears the identifier changes no attribute. *)
Theorem Read_footprint d meta w diags d' w' :
  resourceCloudflareAccessCACertificateRead initIdentifier strconv_Quote d meta w
  = Returned (diags, d', w') ->
  (forall key, key <> "aud" -> key <> "public_key" ->
     attributes d' !! key = attributes d !! key)
  /\ (Id d' = Id d \/ Id d' = "")
  /\ (diags <> [] -> d' = d)
  /\ (Id d' <> Id d -> attributes d' = attributes d).
Proof.
  intros HR.
  destruct (Read_cases _ _ _ _ _ _ HR)
    as [(err & -> & ->) | [[-> ->] | (-> & cert & ->)]].
  - repeat split; auto.
  - repeat split; auto. done.
  - split; [|repeat split; auto; done].
    intros key Haud Hpk. simpl. by rewrite !lookup_insert_ne.
Qed.

(** X4: whatever Delete returns, no attribute changes; without a
    diagnostic the identifier is cleared, with one the local state is
    untouched; and its client calls are exactly one scope-appropriate
    delete, keyed by the container id and [application_id], when the scope
    resolves, and none otherwise. *)
Theorem Delete_footprint d meta w diags d' w' :
  Delete d meta w = Returned (diags, d', w') ->
  attributes d' = attributes d
  /\ (diags = [] -> Id d' = "")
  /\ (diags <> [] -> d' = d)
  /\ calls (trace w') =
     calls (trace w)
     ++ match initIdentifier d with
        | inl identifier =>
            [Call (delete_method identifier) (Value identifier)
               (d_Get d "application_id")]
        | inr _ => []
        end.
Proof.
  intros HD. destruct (Delete_cases _ _ _ _ _ _ HD) as [Hcases Hcalls].
  destruct Hcases as [(err & -> & ->) | [-> ->]]; repeat split; auto; done.
Qed.

(** X12: Read, Create, Update and Delete never return a warning and never
    more than one diagnostic: the result is either empty or one
    error-severity diagnostic with an empty detail. *)
Theorem hooks_return_at_most_one_error d meta w diags d' w' :
  Read d meta w = Returned (diags, d', w')
  \/ Create d meta w = Returned (diags, d', w')
  \/ resourceCloudflareAccessCACertificateUpdate d meta w = Returned (diags, d', w')
  \/ Delete d meta w = Returned (diags, d', w') ->
  diags = []
  \/ exists summary,
       diags = [ {| diag_Severity := SevError; diag_Summary := summary;
                    diag_Detail := "" |} ].
Proof.
  assert (forall d0 w0 diags0 d0' w0',
            Read d0 meta w0 = Returned (diags0, d0', w0') ->
            diags0 = []
            \/ exists summary,
                 diags0 = [ {| diag_Severity := SevError; diag_Summary := summary;
                               diag_Detail := "" |} ]) as Hread.
  { intros d0 w0 diags0 d0' w0' HR.
    destruct (Read_cases _ _ _ _ _ _ HR)
      as [(err & -> & _) | [[-> _] | (-> & _)]]; eauto. }
  intros [HR | [HC | [HU | HD]]].
  - eauto.
  - destruct meta as [client|]; [|done].
    destruct (initIdentifier d) as [identifier|err] eqn:Hid.
    + destruct (create_op client identifier (Value identifier)
                  (d_Get d "application_id") (remote w)) as [res r] eqn:Hcreate.
      rewrite (Create_resolved _ _ _ _ _ _ _ _ Hid Hcreate) in HC. cbv zeta in HC.
      destruct res as [cert|err]; [eauto|].
      injection HC as <- _ _. eauto.
    + unfold resourceCloudflareAccessCACertificateCreate in HC. rewrite Hid in HC.
      injection HC as <- _ _. eauto.
  - injection HU as <- _ _. eauto.
  - destruct (Delete_cases _ _ _ _ _ _ HD) as [[(err & -> & _) | [-> _]] _]; eauto.
Qed.


(** The scope field that Import sets is none of [aud], [public_key] and
    [application_id]. *)
Lemma scope_key_not_mirrored ty :
  ty = AccountType \/ ty = ZoneType ->
  ty +:+ "_id" <> "aud" /\ ty +:+ "_id" <> "public_key"
  /\ ty +:+ "_id" <> "application_id".
Proof. intros [-> | ->]; repeat split; discriminate. Qed.

(** Import does not change what Read takes as the application id. *)
Lemma Import_keeps_application_id d ty A C :
  ty = AccountType \/ ty = ZoneType ->
  d_Get (d_SetId (d_Set d (ty +:+ "_id") A) C) "application_id"
  = d_Get d "application_id".
Proof.
  intros Hty. destruct (scope_key_not_mirrored ty Hty) as (_ & _ & Happ).
  unfold d_Get. simpl. by rewrite lookup_insert_ne.
Qed.

(** X5: Import of a composite ID ty/A/C whose remote get succeeds returns
    no error and a slice holding exactly the final state: identifier C,
    scope field A, [aud] and [public_key] as fetched. *)
Theorem Import_success_populates_state d client w ty A C identifier cert r :
  ty = AccountType \/ ty = ZoneType ->
  strings_Contains A "/" = false ->
  Id d = ty +:+ "/" +:+ A +:+ "/" +:+ C ->
  initIdentifier (d_SetId (d_Set d (ty +:+ "_id") A) C) = inl identifier ->
  get_op client identifier (Value identifier) (d_Get d "application_id") (remote w)
  = (inl cert, r) ->
  exists d2 w2,
    Import d (APIPointer client) w = Returned (([d2], None), d2, w2)
    /\ Id d2 = C
    /\ d_Get d2 (ty +:+ "_id") = A
    /\ d_Get d2 "aud" = Aud cert
    /\ d_Get d2 "public_key" = PublicKey cert
    /\ remote w2 = r.
Proof.
  intros Hty HA HId Hid Hget.
  destruct (scope_key_not_mirrored ty Hty) as (Haud & Hpk & _).
  rewrite <-(Import_keeps_application_id d ty A C Hty) in Hget.
  eexists _, _. split.
  { rewrite (Import_composite _ _ d _ w ty A C Hty HA HId).
    rewrite (Read_resolved _ _ _ client
               (tflog LevelDebug _ w) identifier (inl cert) r Hid Hget).
    cbv zeta. simpl. done. }
  unfold d_Get. simpl.
  rewrite (lookup_insert_ne _ "public_key" (ty +:+ "_id")) by done.
  rewrite (lookup_insert_ne _ "aud" (ty +:+ "_id")) by done.
  rewrite (lookup_insert_ne _ "public_key" "aud") by done.
  by rewrite !lookup_insert_eq.
Qed.


(** X6: Import of a composite ID ty/A/C whose remote get answers Not-Found
    does not fail: it returns no error and a slice holding the final state,
    whose identifier is empty and whose scope field is A. *)
Theorem Import_of_absent_certificate_succeeds d client w ty A C identifier err r :
  ty = AccountType \/ ty = ZoneType ->
  strings_Contains A "/" = false ->
  Id d = ty +:+ "/" +:+ A +:+ "/" +:+ C ->
  initIdentifier (d_SetId (d_Set d (ty +:+ "_id") A) C) = inl identifier ->
  get_op client identifier (Value identifier) (d_Get d "application_id") (remote w)
  = (inr err, r) ->
  errors_As_NotFoundError err = true ->
  exists d2 w2,
    Import d (APIPointer client) w = Returned (([d2], None), d2, w2)
    /\ Id d2 = ""
    /\ d_Get d2 (ty +:+ "_id") = A
    /\ (forall key, key <> ty +:+ "_id" -> attributes d2 !! key = attributes d !! key).
Proof.
  intros Hty HA HId Hid Hget Hnf.
  rewrite <-(Import_keeps_application_id d ty A C Hty) in Hget.
  eexists _, _. split.
  { rewrite (Import_composite _ _ d _ w ty A C Hty HA HId).
    rewrite (Read_resolved _ _ _ client
               (tflog LevelDebug _ w) identifier (inr err) r Hid Hget).
    cbv zeta. rewrite Hnf. simpl. done. }
  unfold d_Get. simpl. rewrite lookup_insert_eq.
  repeat split; try done. intros key Hkey. by rewrite lookup_insert_ne.
Qed.

(** X7: when the Read of an Import reports a diagnostic, Import fails but
    the local state is not restored: it keeps the scope field and the
    identifier that Import set from the ID. *)
Theorem Import_failure_keeps_parsed_state d meta w ty A C readErr d2 w2 :
  ty = AccountType \/ ty = ZoneType ->
  strings_Contains A "/" = false ->
  Id d = ty +:+ "/" +:+ A +:+ "/" +:+ C ->
  Read (d_SetId (d_Set d (ty +:+ "_id") A) C) meta
    (tflog LevelDebug
       ("Importing Cloudflare Access CA Certificate: id "
        +:+ C +:+ " for " +:+ ty +:+ " " +:+ A) w)
  = Returned (readErr, d2, w2) ->
  readErr <> [] ->
  exists res err,
    Import d meta w = Returned ((res, Some err), d2, w2)
    /\ d2 = d_SetId (d_Set d (ty +:+ "_id") A) C
    /\ Id d2 = C
    /\ d_Get d2 (ty +:+ "_id") = A.
Proof.
  intros Hty HA HId HR Hne.
  pose proof (Read_diag_keeps_d _ _ _ _ _ _ _ _ HR Hne) as ->.
  eexists _, _. split.
  { rewrite (Import_composite _ _ d _ w ty A C Hty HA HId), HR.
    simpl. destruct readErr; [done|]. reflexivity. }
  split; [done|]. split; [done|].
  unfold d_Get. simpl. by rewrite lookup_insert_eq.
Qed.

(** X8: every return of Import is one of three: the format error with
    nothing changed, exactly when the ID is malformed; the generic read
    error with a nil slice; or no error with a slice holding the final
    state and nothing else. *)
Theorem Import_result_classification d meta w res err_opt d' w' :
  Import d meta w = Returned ((res, err_opt), d', w') ->
  (malformed_id (Id d) /\ err_opt = Some (invalid_id_error (Id d))
   /\ res = [] /\ d' = d /\ w' = w)
  \/ (~ malformed_id (Id d)
      /\ ((err_opt = Some (errors_New "failed to read Access CA Certificate state")
           /\ res = [])
          \/ (err_opt = None /\ res = [d']))).
Proof.
  intros HI. unfold malformed_id.
  pose proof (strings_SplitN_length (Id d) "/" 3) as Hmin.
  pose proof (strings_SplitN_head (Id d) "/" 1) as Hhead.
  destruct (decide (length (strings_SplitN (Id d) "/" 3) = 3)) as [Hlen|Hlen].
  - destruct (strings_SplitN (Id d) "/" 3) as [|ty [|A [|C [|p4 rest]]]] eqn:Hsplit;
      try done.
    rewrite !length_cons, length_nil in Hmin. simpl in Hhead.
    rewrite (Import_three_parts _ _ _ _ _ _ _ _ Hsplit) in HI.
    destruct (String.eqb_spec ty AccountType) as [Hacc|Hacc];
      destruct (String.eqb_spec ty ZoneType) as [Hzone|Hzone]; simpl in HI.
    4: { left. injection HI as <- <- <- <-. rewrite <-Hhead.
         split; [|done]. right. split; congruence. }
    all: right; split;
      [ intros [Hshort | [Hna Hnz]]; [lia | rewrite <-Hhead in Hna, Hnz; congruence]
      | unfold import_after_read in HI;
        destruct (Read _ meta _) as [[[readErr d2] w2]|]; [|done];
        destruct readErr; injection HI as <- <- <- _; auto ].
  - left. rewrite (Import_fewer_parts _ _ _ _ _ Hlen) in HI.
    injection HI as <- <- <- <-. split; [|done]. left. lia.
Qed.

(** ** Create and Read, composed *)

(** X9: when the remote create and the remote get of the final Read both
    succeed, Create returns no diagnostics; the identifier is the one the
    create returned, while [aud] and [public_key] are those of the entity
    the get returned, not of the entity the create returned. *)
Theorem Create_success_mirrors_fetched_entity
    d client w identifier created r1 identifier1 fetched r2 :
  initIdentifier d = inl identifier ->
  create_op client identifier (Value identifier) (d_Get d "application_id") (remote w)
  = (inl created, r1) ->
  initIdentifier (d_SetId d (ID created)) = inl identifier1 ->
  get_op client identifier1 (Value identifier1) (d_Get d "application_id") r1
  = (inl fetched, r2) ->
  exists d' w',
    Create d (APIPointer client) w = Returned ([], d', w')
    /\ Id d' = ID created
    /\ d_Get d' "aud" = Aud fetched
    /\ d_Get d' "public_key" = PublicKey fetched
    /\ (forall key, key <> "aud" -> key <> "public_key" ->
          attributes d' !! key = attributes d !! key)
    /\ remote w' = r2
    /\ trace w' =
       trace w
       ++ [Call (create_method identifier) (Value identifier) (d_Get d "application_id");
           Call (get_method identifier1) (Value identifier1) (d_Get d "application_id")].
Proof.
  intros Hid Hcreate Hid1 Hget.
  eexists _, _. split.
  { rewrite (Create_resolved _ _ _ _ _ _ _ _ Hid Hcreate). cbv zeta.
    rewrite (Read_resolved _ _ (d_SetId d (ID created)) client
               (called w (create_method identifier) (Value identifier)
                  (d_Get d "application_id") r1)
               identifier1 (inl fetched) r2 Hid1 Hget).
    cbv zeta. done. }
  unfold d_Get. simpl.
  rewrite (lookup_insert_ne _ "public_key" "aud") by done.
  rewrite !lookup_insert_eq.
  repeat split; try done.
  - intros key Haud Hpk. by rewrite !lookup_insert_ne.
  - by rewrite <-app_assoc.
Qed.

(** X10: when the remote create succeeds but the remote get of the final
    Read answers Not-Found, Create returns no diagnostics and an empty
    identifier: the identifier the create returned is not kept, and no
    attribute changes. *)
Theorem Create_then_not_found_drops_identifier
    d client w identifier created r1 identifier1 err r2 :
  initIdentifier d = inl identifier ->
  create_op client identifier (Value identifier) (d_Get d "application_id") (remote w)
  = (inl created, r1) ->
  initIdentifier (d_SetId d (ID created)) = inl identifier1 ->
  get_op client identifier1 (Value identifier1) (d_Get d "application_id") r1
  = (inr err, r2) ->
  errors_As_NotFoundError err = true ->
  exists d' w',
    Create d (APIPointer client) w = Returned ([], d', w')
    /\ Id d' = ""
    /\ attributes d' = attributes d
    /\ remote w' = r2
    /\ calls (trace w') =
       calls (trace w)
       ++ [Call (create_method identifier) (Value identifier) (d_Get d "application_id");
           Call (get_method identifier1) (Value identifier1) (d_Get d "application_id")].
Proof.
  intros Hid Hcreate Hid1 Hget Hnf.
  eexists _, _. split.
  { rewrite (Create_resolved _ _ _ _ _ _ _ _ Hid Hcreate). cbv zeta.
    rewrite (Read_resolved _ _ (d_SetId d (ID created)) client
               (called w (create_method identifier) (Value identifier)
                  (d_Get d "application_id") r1)
               identifier1 (inr err) r2 Hid1 Hget).
    cbv zeta. rewrite Hnf. done. }
  repeat split; try done. simpl.
  by rewrite !calls_app, app_nil_r, <-app_assoc.
Qed.

(** Writing the same [aud] and [public_key] a second time changes nothing. *)
Lemma d_Set_mirrored_twice d a p :
  d_Set (d_Set (d_Set (d_Set d "aud" a) "public_key" p) "aud" a) "public_key" p
  = d_Set (d_Set d "aud" a) "public_key" p.
Proof.
  unfold d_Set. simpl. f_equal.
  apply map_eq. intros key. rewrite !lookup_insert.
  repeat case_decide; congruence.
Qed.

(** X11: a successful Read is idempotent on the local state: a second Read
    that fetches the same entity returns no diagnostics and leaves the
    state exactly as the first Read left it. *)
Theorem Read_success_is_idempotent d client w identifier cert r identifier' r' :
  initIdentifier d = inl identifier ->
  get_op client identifier (Value identifier) (d_Get d "application_id") (remote w)
  = (inl cert, r) ->
  initIdentifier (d_Set (d_Set d "aud" (Aud cert)) "public_key" (PublicKey cert))
  = inl identifier' ->
  get_op client identifier' (Value identifier') (d_Get d "application_id") r
  = (inl cert, r') ->
  exists d1 w1 w2,
    Read d (APIPointer client) w = Returned ([], d1, w1)
    /\ Read d1 (APIPointer client) w1 = Returned ([], d1, w2).
Proof.
  intros Hid Hget Hid' Hget'.
  eexists _, _, _. split.
  { rewrite (Read_resolved _ _ _ _ _ _ _ _ Hid Hget). cbv zeta. done. }
  assert (get_op client identifier' (Value identifier')
            (d_Get (d_Set (d_Set d "aud" (Aud cert)) "public_key" (PublicKey cert))
               "application_id")
            (remote (called w (get_method identifier) (Value identifier)
                       (d_Get d "application_id") r))
          = (inl cert, r')) as Hget''.
  { rewrite <-Hget'. simpl. f_equal.
    unfold d_Get. simpl. by rewrite !lookup_insert_ne. }
  rewrite (Read_resolved _ _ _ _ _ _ _ _ Hid' Hget''). cbv zeta.
  by rewrite d_Set_mirrored_twice.
Qed.

End Further.

(** ** The further properties at concrete inputs *)

(** Read with neither scope field set. *)
Lemma scope_failure_stops_before_any_call_witness :
  Read0 (importing "cert789") (APIPointer scripted_client) (start [inl cert789])
  = Returned ([ {| diag_Severity := SevError;
                   diag_Summary := "zone_id or account_id required";
                   diag_Detail := "" |} ],
              importing "cert789", start [inl cert789]).
Proof.
  exact (proj1 (scope_failure_stops_before_any_call spec_initIdentifier quote_plain
                  (importing "cert789") scripted_client (start [inl cert789])
                  (errorString "zone_id or account_id required") eq_refl)).
Defined.

(** Read while the remote get is down. *)
Lemma Read_other_failure_reports_and_keeps_state_witness :
  Read0 (in_account "cert789") (APIPointer scripted_client) (start [inr outage])
  = Returned ([ {| diag_Severity := SevError;
                   diag_Summary :=
                     "error finding Access CA Certificate "
                     +:+ dq +:+ "cert789" +:+ dq +:+ ": HTTP status 503";
                   diag_Detail := "" |} ],
              in_account "cert789",
              {| remote := [];
                 trace := [Call "AccessCACertificate" "acc123" "app456"] |}).
Proof.
  exact (Read_other_failure_reports_and_keeps_state spec_initIdentifier quote_plain
           (in_account "cert789") scripted_client (start [inr outage])
           account_acc123 outage [] eq_refl eq_refl eq_refl).
Defined.

(** Read on a certificate that is gone: the identifier changes, so no
    attribute does. *)
Lemma Read_footprint_witness :
  attributes (in_account "") = attributes (in_account "cert789").
Proof.
  refine (proj2 (proj2 (proj2
            (Read_footprint spec_initIdentifier quote_plain
               (in_account "cert789") (APIPointer scripted_client)
               (start [inr not_found]) [] (in_account "")
               {| remote := [];
                  trace := [Call "AccessCACertificate" "acc123" "app456";
                            Log LevelInfo
                              "Access CA Certificate cert789 no longer exists"] |}
               _))) _).
  - reflexivity.
  - discriminate.
Defined.

(** Delete while the remote delete is down: one delete call, state kept. *)
Lemma Delete_footprint_witness :
  exists w',
    Delete0 (in_zone "cert789") (APIPointer scripted_client) (start [inr outage])
    = Returned (diag_FromErr outage, in_zone "cert789", w')
    /\ calls (trace w') = [Call "DeleteZoneLevelAccessCACertificate" "zone123" "app456"].
Proof.
  eexists. split; [reflexivity|].
  exact (proj2 (proj2 (proj2
           (Delete_footprint spec_initIdentifier
              (in_zone "cert789") (APIPointer scripted_client) (start [inr outage])
              (diag_FromErr outage) (in_zone "cert789") _ eq_refl)))).
Defined.

(** Import of an existing account-level certificate. *)
Lemma Import_success_populates_state_witness :
  exists d2 w2,
    Import0 (importing "account/acc123/cert789") (APIPointer scripted_client)
      (start [inl cert789])
    = Returned (([d2], None), d2, w2)
    /\ Id d2 = "cert789"
    /\ d_Get d2 "account_id" = "acc123"
    /\ d_Get d2 "aud" = "aud-tag"
    /\ d_Get d2 "public_key" = "ecdsa-sha2-nistp256 AAAA".
Proof.
  destruct (Import_success_populates_state spec_initIdentifier quote_plain
              (importing "account/acc123/cert789") scripted_client
              (start [inl cert789]) AccountType "acc123" "cert789"
              account_acc123 cert789 [])
    as (d2 & w2 & HI & HId & Hscope & Haud & Hpk & _);
    [by left | reflexivity..|].
  exists d2, w2. repeat split; assumption.
Defined.

(** Import of a zone-level certificate that does not exist. *)
Lemma Import_of_absent_certificate_succeeds_witness :
  exists d2 w2,
    Import0 (importing "zone/zone123/cert789") (APIPointer scripted_client)
      (start [inr not_found])
    = Returned (([d2], None), d2, w2)
    /\ Id d2 = ""
    /\ d_Get d2 "zone_id" = "zone123".
Proof.
  destruct (Import_of_absent_certificate_succeeds spec_initIdentifier quote_plain
              (importing "zone/zone123/cert789") scripted_client
              (start [inr not_found]) ZoneType "zone123" "cert789"
              zone_zone123 not_found [])
    as (d2 & w2 & HI & HId & Hscope & _);
    [by right | reflexivity..|].
  exists d2, w2. repeat split; assumption.
Defined.

(** Import of an ID with an empty container id: Read fails on the scope,
    Import fails, the parsed fields stay. *)
Lemma Import_failure_keeps_parsed_state_witness :
  exists res err w2,
    Import0 (importing "account//cert789") (APIPointer scripted_client)
      (start [inl cert789])
    = Returned ((res, Some err),
                {| Id := "cert789"; attributes := <["account_id" := ""]> ∅ |}, w2).
Proof.
  edestruct (Import_failure_keeps_parsed_state spec_initIdentifier quote_plain
               (importing "account//cert789") (APIPointer scripted_client)
               (start [inl cert789]) AccountType "" "cert789"
               (diag_FromErr (errorString "zone_id or account_id required"))
               {| Id := "cert789"; attributes := <["account_id" := ""]> ∅ |})
    as (res & err & HI & _);
    [by left | reflexivity | reflexivity | vm_compute; reflexivity | discriminate |].
  eexists _, _, _. exact HI.
Defined.

(** An ID of two segments is malformed; an ID of four segments is not. *)
Lemma Import_result_classification_witness :
  malformed_id "account/acc123"
  /\ ~ malformed_id "account/acc123/cert789/extra".
Proof.
  split.
  - edestruct (Import_result_classification spec_initIdentifier quote_plain
                 (importing "account/acc123") (APIPointer scripted_client)
                 (start [inl cert789]))
      as [(Hm & _) | (_ & [[He _] | [He _]])]; [vm_compute; reflexivity | ..].
    + exact Hm.
    + discriminate He.
    + discriminate He.
  - edestruct (Import_result_classification spec_initIdentifier quote_plain
                 (importing "account/acc123/cert789/extra") (APIPointer scripted_client)
                 (start [inl cert789]))
      as [(_ & He & _) | (Hnm & _)]; [vm_compute; reflexivity | ..].
    + discriminate He.
    + exact Hnm.
Defined.

(** Create in an account: the create answers with one entity, the get with
    another; the state mirrors the one the get returned. *)
Lemma Create_success_mirrors_fetched_entity_witness :
  exists d' w',
    Create0 (in_account "") (APIPointer scripted_client)
      (start [inl cert_created; inl cert789])
    = Returned ([], d', w')
    /\ Id d' = "cert789"
    /\ d_Get d' "aud" = "aud-tag"
    /\ d_Get d' "public_key" = "ecdsa-sha2-nistp256 AAAA".
Proof.
  destruct (Create_success_mirrors_fetched_entity spec_initIdentifier quote_plain
              (in_account "") scripted_client (start [inl cert_created; inl cert789])
              account_acc123 cert_created [inl cert789] account_acc123 cert789 [])
    as (d' & w' & HC & HId & Haud & Hpk & _); [reflexivity..|].
  exists d', w'. repeat split; assumption.
Defined.

(** Create in an account: the create succeeds, the get answers Not-Found. *)
Lemma Create_then_not_found_drops_identifier_witness :
  exists d' w',
    Create0 (in_account "") (APIPointer scripted_client)
      (start [inl cert_created; inr not_found])
    = Returned ([], d', w')
    /\ Id d' = "".
Proof.
  destruct (Create_then_not_found_drops_identifier spec_initIdentifier quote_plain
              (in_account "") scripted_client
              (start [inl cert_created; inr not_found])
              account_acc123 cert_created [inr not_found] account_acc123 not_found [])
    as (d' & w' & HC & HId & _); [reflexivity..|].
  exists d', w'. split; assumption.
Defined.

(** Two Reads in a row, the certificate being there both times. *)
Lemma Read_success_is_idempotent_witness :
  exists d1 w1 w2,
    Read0 (in_account "cert789") (APIPointer scripted_client)
      (start [inl cert789; inl cert789])
    = Returned ([], d1, w1)
    /\ Read0 d1 (APIPointer scripted_client) w1 = Returned ([], d1, w2).
Proof.
  exact (Read_success_is_idempotent spec_initIdentifier quote_plain
           (in_account "cert789") scripted_client (start [inl cert789; inl cert789])
           account_acc123 cert789 [inl cert789] account_acc123 []
           eq_refl eq_refl eq_refl eq_refl).
Defined.

(** The one diagnostic of a failed Delete. *)
Lemma hooks_return_at_most_one_error_witness :
  diag_FromErr outage = []
  \/ exists summary,
       diag_FromErr outage
       = [ {| diag_Severity := SevError; diag_Summary := summary;
              diag_Detail := "" |} ].
Proof.
  refine (hooks_return_at_most_one_error spec_initIdentifier quote_plain
            (in_account "cert789") (APIPointer scripted_client) (start [inr outage])
            (diag_FromErr outage) (in_account "cert789")
            {| remote := [];
               trace := [Log LevelDebug
                           "Deleting Cloudflare CA Certificate using ID: cert789";
                         Call "DeleteAccessCACertificate" "acc123" "app456"] |}
            _).
  right. right. right. reflexivity.
Defined.
